(** * vuls: vulnerability-database clients and the Azure Blob report sink

    A shallow embedding of [detector.NewDBClient], the five per-database
    factories [NewCveDB] ... [NewMetasploitDB], [DBClient.CloseDB] and
    [reporter.AzureBlobWriter.Write].

    The Go code talks to the outside world (the file system, the database
    drivers, the logger, Azure storage).  Every such call is recorded as an
    event, and what the outside world answers is read from a [World] whose
    answers may depend on everything that happened before. *)

From Stdlib Require Import List String.
Import ListNotations.
Open Scope string_scope.
Open Scope list_scope.

Set Implicit Arguments.

(** ** Errors

    A Go [error] is either a value handed back by an external library or one
    built by [xerrors.Errorf] from a format string and its arguments. *)

Inductive error : Type :=
| ExternalError (msg : string)
| Errorf (format : string) (args : list fmtArg)
with fmtArg : Type :=
| ArgString (s : string)
| ArgError (e : error).

(** ** The monad of effectful code

    A computation reads the history of events and returns its value together
    with the events it performed itself. *)

Definition M (E A : Type) : Type := list E -> A * list E.

Definition ret {E A} (a : A) : M E A := fun _ => (a, []).

Definition bind {E A B} (m : M E A) (f : A -> M E B) : M E B :=
  fun h =>
    let (a, es) := m h in
    let (b, es') := f a (h ++ es) in
    (b, es ++ es').

Declare Scope go_scope.
Delimit Scope go_scope with go.
Notation "x <- m ;; k" := (bind m (fun x => k))
  (at level 100, m at next level, right associativity) : go_scope.
Notation "' p <- m ;; k" := (bind m (fun x => match x with p => k end))
  (at level 100, p pattern, m at next level, right associativity) : go_scope.
Notation "m ;; k" := (bind m (fun _ => k))
  (at level 100, right associativity) : go_scope.
Open Scope go_scope.

Definition value {E A} (r : A * list E) : A := fst r.
Definition events {E A} (r : A * list E) : list E := snd r.

Module Detector.

(** ** The five databases *)

Inductive ResourceKind : Type := Cve | Oval | Gost | Exploit | Metasploit.

(** A driver handle ([cvedb.DB], [ovaldb.DB], ...); [None] is Go's nil. *)
Definition Handle := nat.

(** What a driver's [NewDB] and each factory return:
    [(driver, locked, err)]. *)
Definition OpenResult : Type := option Handle * bool * option error.

Definition res_driver (r : OpenResult) : option Handle := fst (fst r).
Definition res_locked (r : OpenResult) : bool := snd (fst r).
Definition res_err (r : OpenResult) : option error := snd r.

(** ** Configuration

    The fields of [config.GoCveDictConf], [config.GovalDictConf],
    [config.GostConf], [config.ExploitConf] and [config.MetasploitConf] that
    the factories read. *)

Record DictConf : Type := mkDictConf {
  Type_ : string;
  URL : string;
  SQLite3Path : string
}.

Record DBClientConf : Type := mkDBClientConf {
  CveDictCnf : DictConf;
  OvalDictCnf : DictConf;
  GostCnf : DictConf;
  ExploitCnf : DictConf;
  MetasploitCnf : DictConf;
  DebugSQL : bool
}.

Definition confOf (k : ResourceKind) (cnf : DBClientConf) : DictConf :=
  match k with
  | Cve => CveDictCnf cnf
  | Oval => OvalDictCnf cnf
  | Gost => GostCnf cnf
  | Exploit => ExploitCnf cnf
  | Metasploit => MetasploitCnf cnf
  end.

(** [DBClient]: one slot per database. *)
Record DBClient : Type := mkDBClient {
  CveDB : option Handle;
  OvalDB : option Handle;
  GostDB : option Handle;
  ExploitDB : option Handle;
  MetasploitDB : option Handle
}.

Definition slot (k : ResourceKind) (d : DBClient) : option Handle :=
  match k with
  | Cve => CveDB d
  | Oval => OvalDB d
  | Gost => GostDB d
  | Exploit => ExploitDB d
  | Metasploit => MetasploitDB d
  end.

(** ** Events and the world *)

Inductive Level : Type := LvlDebug | LvlWarn.

Inductive Event : Type :=
| EvStat (path : string) (notExist : bool)
    (* os.Stat(path) followed by os.IsNotExist(err) *)
| EvNewDB (k : ResourceKind) (dbType path : string) (debugSQL : bool)
          (res : OpenResult)
    (* <k>db.NewDB(dbType, path, debugSQL) and what it returned; ovaldb.NewDB
       takes a leading empty string and metasploitdb.NewDB a trailing false, both
       constants *)
| EvCloseDB (k : ResourceKind) (h : Handle) (res : option error)
    (* handle.CloseDB() and what it returned *)
| EvLog (lvl : Level) (format : string) (args : list fmtArg)
    (* logging.Log.Debugf / Warnf *)
| EvFactory (k : ResourceKind) (res : OpenResult).
    (* NewDBClient called New<k>DB(cnf), which returned res *)

Definition Trace := list Event.
Definition Go : Type -> Type := M Event.

(** The answers of the outside world.  [IsFetchViaHTTP] is the method of the
    configuration types, which lives in package [config]; the other three are
    the operating system and the database drivers, whose answer may depend
    on the history of events so far. *)
Record World : Type := mkWorld {
  IsFetchViaHTTP : ResourceKind -> DictConf -> bool;
  statNotExist : Trace -> string -> bool;
  driverNewDB : Trace -> ResourceKind -> string -> string -> bool -> OpenResult;
  driverCloseDB : Trace -> ResourceKind -> Handle -> option error
}.

Section WithWorld.

Variable w : World.

Definition osStatIsNotExist (path : string) : Go bool :=
  fun h => let b := statNotExist w h path in (b, [EvStat path b]).

Definition NewDB (k : ResourceKind) (dbType path : string) (debugSQL : bool)
  : Go OpenResult :=
  fun h => let r := driverNewDB w h k dbType path debugSQL in
           (r, [EvNewDB k dbType path debugSQL r]).

Definition handleCloseDB (k : ResourceKind) (hd : Handle) : Go (option error) :=
  fun h => let r := driverCloseDB w h k hd in (r, [EvCloseDB k hd r]).

Definition Debugf (format : string) (args : list fmtArg) : Go unit :=
  fun _ => (tt, [EvLog LvlDebug format args]).

Definition Warnf (format : string) (args : list fmtArg) : Go unit :=
  fun _ => (tt, [EvLog LvlWarn format args]).

(** *** The factories *)

Definition cveNotFound : string :=
  "--cvedb-path=%s file not found. [CPE-scan](https://vuls.io/docs/en/usage-scan-non-os-packages.html#cpe-scan) needs cve-dictionary. if you specify cpe in config.toml, fetch cve-dictionary before reporting. For details, see `https://github.com/kotakanbe/go-cve-dictionary#deploy-go-cve-dictionary`".
Definition ovalNotFound : string := "--ovaldb-path=%s file not found".
Definition gostNotFound : string :=
  "--gostdb-path=%s file not found. Vuls can detect `patch-not-released-CVE-ID` using gost if the scan target server is Debian, RHEL or CentOS, For details, see `https://github.com/knqyf263/gost#fetch-redhat`".
Definition exploitNotFound : string :=
  "--exploitdb-path=%s file not found. Fetch go-exploit-db before reporting if you want to display exploit codes of detected CVE-IDs. For details, see `https://github.com/vulsio/go-exploitdb`".
Definition metasploitNotFound : string :=
  "--msfdb-path=%s file not found. Fetch go-msfdb before reporting if you want to display metasploit modules of detected CVE-IDs. For details, see `https://github.com/takuzoo3868/go-msfdb`".

Definition NewCveDB (cnf : DBClientConf) : Go OpenResult :=
  if IsFetchViaHTTP w Cve (CveDictCnf cnf) then ret (None, false, None)
  else
    Debugf "open cve-dictionary db (%s)" [ArgString (Type_ (CveDictCnf cnf))];;
    let open (path : string) : Go OpenResult :=
      Debugf "Open cve-dictionary db (%s): %s"
             [ArgString (Type_ (CveDictCnf cnf)); ArgString path];;
      '(driver, locked, err) <-
         NewDB Cve (Type_ (CveDictCnf cnf)) path (DebugSQL cnf);;
      match err with
      | Some e =>
          ret (None, locked,
               Some (Errorf "Failed to init CVE DB. err: %w, path: %s"
                            [ArgError e; ArgString path]))
      | None => ret (driver, false, None)
      end in
    if Type_ (CveDictCnf cnf) =? "sqlite3" then
      let path := SQLite3Path (CveDictCnf cnf) in
      notExist <- osStatIsNotExist path;;
      if notExist then
        Warnf cveNotFound [ArgString path];;
        ret (None, false, None)
      else open path
    else open (URL (CveDictCnf cnf)).

Definition NewOvalDB (cnf : DBClientConf) : Go OpenResult :=
  if IsFetchViaHTTP w Oval (OvalDictCnf cnf) then ret (None, false, None)
  else
    let open (path : string) : Go OpenResult :=
      Debugf "Open oval-dictionary db (%s): %s"
             [ArgString (Type_ (OvalDictCnf cnf)); ArgString path];;
      '(driver, locked, err) <-
         NewDB Oval (Type_ (OvalDictCnf cnf)) path (DebugSQL cnf);;
      match err with
      | Some e =>
          let err' := Errorf "Failed to new OVAL DB. err: %w" [ArgError e] in
          if locked then ret (None, true, Some err')
          else ret (None, false, Some err')
      | None => ret (driver, false, None)
      end in
    if Type_ (OvalDictCnf cnf) =? "sqlite3" then
      let path := SQLite3Path (OvalDictCnf cnf) in
      notExist <- osStatIsNotExist path;;
      if notExist then
        Warnf ovalNotFound [ArgString path];;
        ret (None, false, None)
      else open path
    else open (URL (OvalDictCnf cnf)).

(** [NewGostDB], [NewExploitDB] and [NewMetasploitDB] are the same text up
    to the database, its configuration and the messages. *)
Definition newEnrichmentDB (k : ResourceKind) (c : DictConf) (debugSQL : bool)
    (notFound openMsg lockedMsg : string) : Go OpenResult :=
  if IsFetchViaHTTP w k c then ret (None, false, None)
  else
    let open (path : string) : Go OpenResult :=
      Debugf openMsg [ArgString (Type_ c); ArgString path];;
      '(driver, locked, err) <- NewDB k (Type_ c) path debugSQL;;
      match err with
      | Some e =>
          if locked then ret (None, true, Some (Errorf lockedMsg [ArgError e]))
          else ret (None, false, Some e)
      | None => ret (driver, false, None)
      end in
    if Type_ c =? "sqlite3" then
      let path := SQLite3Path c in
      notExist <- osStatIsNotExist path;;
      if notExist then
        Warnf notFound [ArgString path];;
        ret (None, false, None)
      else open path
    else open (URL c).

Definition NewGostDB (cnf : DBClientConf) : Go OpenResult :=
  newEnrichmentDB Gost (GostCnf cnf) (DebugSQL cnf)
    gostNotFound "Open gost db (%s): %s" "gostDB is locked. err: %w".

Definition NewExploitDB (cnf : DBClientConf) : Go OpenResult :=
  newEnrichmentDB Exploit (ExploitCnf cnf) (DebugSQL cnf)
    exploitNotFound "Open exploit db (%s): %s" "exploitDB is locked. err: %w".

Definition NewMetasploitDB (cnf : DBClientConf) : Go OpenResult :=
  newEnrichmentDB Metasploit (MetasploitCnf cnf) (DebugSQL cnf)
    metasploitNotFound "Open metasploit db (%s): %s"
    "metasploitDB is locked. err: %w".

(** The factory of each database. *)
Definition factory (k : ResourceKind) : DBClientConf -> Go OpenResult :=
  match k with
  | Cve => NewCveDB
  | Oval => NewOvalDB
  | Gost => NewGostDB
  | Exploit => NewExploitDB
  | Metasploit => NewMetasploitDB
  end.

(** *** NewDBClient

    [call k cnf] is the call [New<k>DB(cnf)] as [NewDBClient] makes it: the
    factory runs, and the call and its result are recorded. *)
Definition call (k : ResourceKind) (cnf : DBClientConf) : Go OpenResult :=
  r <- factory k cnf;;
  (fun _ => (r, [EvFactory k r])).

Definition NewDBClientResult : Type := option DBClient * bool * option error.

(** The [else if err != nil] branch of an enrichment database: a warning,
    and the run goes on. *)
Definition warnUnable (format : string) (path : string) (err : option error)
  : Go unit :=
  match err with
  | Some e => Warnf format [ArgString path; ArgError e]
  | None => ret tt
  end.

Definition NewDBClient (cnf : DBClientConf) : Go NewDBClientResult :=
  '(cveDriver, locked, err) <- call Cve cnf;;
  if locked then
    ret (None, true,
         Some (Errorf "CveDB is locked: %s"
                      [ArgString (SQLite3Path (OvalDictCnf cnf))]))
  else match err with
  | Some e => ret (None, locked, Some e)
  | None =>
  '(ovaldb, locked, err) <- call Oval cnf;;
  if locked then
    ret (None, true,
         Some (Errorf "OvalDB is locked: %s"
                      [ArgString (SQLite3Path (OvalDictCnf cnf))]))
  else
  warnUnable "Unable to use OvalDB: %s, err: %+v"
             (SQLite3Path (OvalDictCnf cnf)) err;;
  '(gostdb, locked, err) <- call Gost cnf;;
  if locked then
    ret (None, true,
         Some (Errorf "gostDB is locked: %s"
                      [ArgString (SQLite3Path (GostCnf cnf))]))
  else
  warnUnable "Unable to use gostDB: %s, err: %+v"
             (SQLite3Path (GostCnf cnf)) err;;
  '(exploitdb, locked, err) <- call Exploit cnf;;
  if locked then
    ret (None, true,
         Some (Errorf "exploitDB is locked: %s"
                      [ArgString (SQLite3Path (ExploitCnf cnf))]))
  else
  warnUnable "Unable to use exploitDB: %s, err: %+v"
             (SQLite3Path (ExploitCnf cnf)) err;;
  '(metasploitdb, locked, err) <- call Metasploit cnf;;
  if locked then
    ret (None, true,
         Some (Errorf "metasploitDB is locked: %s"
                      [ArgString (SQLite3Path (MetasploitCnf cnf))]))
  else
  warnUnable "Unable to use metasploitDB: %s, err: %+v"
             (SQLite3Path (MetasploitCnf cnf)) err;;
  ret (Some {| CveDB := cveDriver;
               OvalDB := ovaldb;
               GostDB := gostdb;
               ExploitDB := exploitdb;
               MetasploitDB := metasploitdb |}, false, None)
  end.

(** *** CloseDB

    The receiver is passed by value and no field is reset.  The Gost,
    Exploit and Metasploit slots are not looked at
    ([//TODO CloseDB gost, exploitdb, metasploit]). *)
Definition closeSlot (k : ResourceKind) (s : option Handle) (format : string)
    (errs : list error) : Go (list error) :=
  match s with
  | Some hd =>
      r <- handleCloseDB k hd;;
      match r with
      | Some e => ret (errs ++ [Errorf format [ArgError e]])
      | None => ret errs
      end
  | None => ret errs
  end.

Definition CloseDB (d : DBClient) : Go (list error) :=
  errs <- closeSlot Cve (CveDB d) "Failed to close cveDB. err: %+v" [];;
  errs <- closeSlot Oval (OvalDB d) "Failed to close ovalDB. err: %+v" errs;;
  ret errs.

End WithWorld.

(** ** Reading a trace *)

(** The handles a run opened: driver calls that returned a handle and no
    error. *)
Fixpoint openedHandles (t : Trace) : list (ResourceKind * Handle) :=
  match t with
  | [] => []
  | EvNewDB k _ _ _ (Some hd, _, None) :: t' => (k, hd) :: openedHandles t'
  | _ :: t' => openedHandles t'
  end.

(** The close attempts of a run, in order. *)
Fixpoint closeAttempts (t : Trace) : list (ResourceKind * Handle) :=
  match t with
  | [] => []
  | EvCloseDB k hd _ :: t' => (k, hd) :: closeAttempts t'
  | _ :: t' => closeAttempts t'
  end.

(** The factory calls that [NewDBClient] made, in order, each with what the
    factory returned. *)
Fixpoint factoryCalls (t : Trace) : list (ResourceKind * OpenResult) :=
  match t with
  | [] => []
  | EvFactory k r :: t' => (k, r) :: factoryCalls t'
  | _ :: t' => factoryCalls t'
  end.

(** The databases whose factory [NewDBClient] called, in order. *)
Definition attempted (t : Trace) : list ResourceKind :=
  map fst (factoryCalls t).

(** The outcome of a factory call, in the words of the design. *)
Definition isLocked (r : OpenResult) : bool := res_locked r.
Definition isOpenFailed (r : OpenResult) : bool :=
  negb (res_locked r) && match res_err r with Some _ => true | None => false end.



(** No factory call of the run reported a lock. *)
Definition noLock (t : Trace) : bool :=
  forallb (fun c => negb (isLocked (snd c))) (factoryCalls t).

(** What a slot contributes to the handles to close. *)
Definition slotHandles (k : ResourceKind) (s : option Handle)
  : list (ResourceKind * Handle) :=
  match s with
  | Some hd => [(k, hd)]
  | None => []
  end.

(** The messages of the source, by database. *)
Definition notFoundFormat (k : ResourceKind) : string :=
  match k with
  | Cve => cveNotFound
  | Oval => ovalNotFound
  | Gost => gostNotFound
  | Exploit => exploitNotFound
  | Metasploit => metasploitNotFound
  end.

(* The CVE branch of NewDBClient logs no such warning: it returns the error. *)
Definition unableFormat (k : ResourceKind) : string :=
  match k with
  | Cve => EmptyString
  | Oval => "Unable to use OvalDB: %s, err: %+v"
  | Gost => "Unable to use gostDB: %s, err: %+v"
  | Exploit => "Unable to use exploitDB: %s, err: %+v"
  | Metasploit => "Unable to use metasploitDB: %s, err: %+v"
  end.

Definition lockedFormat (k : ResourceKind) : string :=
  match k with
  | Cve => "CveDB is locked: %s"
  | Oval => "OvalDB is locked: %s"
  | Gost => "gostDB is locked: %s"
  | Exploit => "exploitDB is locked: %s"
  | Metasploit => "metasploitDB is locked: %s"
  end.

(** The configuration whose path the lock error of [k] is built from. *)
Definition lockedPathConf (k : ResourceKind) (cnf : DBClientConf) : DictConf :=
  match k with
  | Cve => OvalDictCnf cnf
  | _ => confOf k cnf
  end.

(** The error a factory returns for a driver error [e] that came with the
    lock flag, the driver having been opened at [path]. *)
Definition lockedWrap (k : ResourceKind) (path : string) (e : error) : error :=
  match k with
  | Cve => Errorf "Failed to init CVE DB. err: %w, path: %s"
                  [ArgError e; ArgString path]
  | Oval => Errorf "Failed to new OVAL DB. err: %w" [ArgError e]
  | Gost => Errorf "gostDB is locked. err: %w" [ArgError e]
  | Exploit => Errorf "exploitDB is locked. err: %w" [ArgError e]
  | Metasploit => Errorf "metasploitDB is locked. err: %w" [ArgError e]
  end.

(** The error [CloseDB] reports for a close that failed. *)
Definition closeFailure (ev : Event) : list error :=
  match ev with
  | EvCloseDB Cve _ (Some e) =>
      [Errorf "Failed to close cveDB. err: %+v" [ArgError e]]
  | EvCloseDB Oval _ (Some e) =>
      [Errorf "Failed to close ovalDB. err: %+v" [ArgError e]]
  | _ => []
  end.

(** The events of a factory before it probes the file. *)
Definition preamble (k : ResourceKind) (c : DictConf) : Trace :=
  match k with
  | Cve => [EvLog LvlDebug "open cve-dictionary db (%s)" [ArgString (Type_ c)]]
  | _ => []
  end.

(** The database opened after [k]. *)
Definition next (k : ResourceKind) : option ResourceKind :=
  match k with
  | Cve => Some Oval
  | Oval => Some Gost
  | Gost => Some Exploit
  | Exploit => Some Metasploit
  | Metasploit => None
  end.

End Detector.

(** * reporter.AzureBlobWriter *)

Module AzureBlob.

(** [AzureBlobWriter] *)
Record AzureBlobWriter : Type := mkAzureBlobWriter {
  FormatJSON : bool;
  FormatFullText : bool;
  FormatOneLineText : bool;
  FormatList : bool;
  Gzip : bool
}.

(** [c.Conf.Azure], the part of the process-wide configuration read here. *)
Record AzureConf : Type := mkAzureConf {
  AccountName : string;
  AccountKey : string;
  ContainerName : string
}.

(** A [storage.BlobStorageClient]. *)
Definition BlobStorageClient := nat.

Inductive Event : Type :=
| EvNewBasicClient (accountName accountKey : string)
                   (res : BlobStorageClient + error)
    (* storage.NewBasicClient(...) then api.GetBlobService() *)
| EvCreateBlockBlob (cli : BlobStorageClient) (container key : string)
                    (body : string) (res : option error).
    (* blob.CreateBlockBlobFromReader(bytes.NewReader(body), nil) *)

Definition Trace := list Event.
Definition Go : Type -> Type := M Event.

Section WithWorld.

(** [models.ScanResult] and the functions of other files and packages that
    [Write] calls on it; byte slices are strings. *)
Variable ScanResult : Type.
Variable ScannedAtRFC3339 : ScanResult -> string.
  (* r.ScannedAt.Format(time.RFC3339) *)
Variable ReportKeyName : ScanResult -> string.
Variable formatOneLineSummary : list ScanResult -> string.
Variable formatList : ScanResult -> string.
Variable formatFullPlainText : ScanResult -> string.
Variable jsonMarshal : ScanResult -> string + error.
Variable gz : string -> string + error.

(** The configuration and the answers of Azure storage. *)
Variable Conf : AzureConf.
Variable storageNewBasicClient :
  Trace -> string -> string -> BlobStorageClient + error.
Variable blobCreateBlockBlobFromReader :
  Trace -> BlobStorageClient -> string -> string -> string -> option error.

Definition getBlobClient : Go (BlobStorageClient + error) :=
  fun h =>
    let r := storageNewBasicClient h (AccountName Conf) (AccountKey Conf) in
    (r, [EvNewBasicClient (AccountName Conf) (AccountKey Conf) r]).

Definition createBlockBlob (cli : BlobStorageClient) (k : string) (b : string)
    (gzip : bool) : Go (option error) :=
  let upload (k b : string) : Go (option error) :=
    r <- (fun h =>
            let r := blobCreateBlockBlobFromReader h cli (ContainerName Conf) k b in
            (r, [EvCreateBlockBlob cli (ContainerName Conf) k b r]));;
    match r with
    | Some e =>
        ret (Some (Errorf "Failed to upload data to %s/%s, err: %w"
                          [ArgString (ContainerName Conf); ArgString k;
                           ArgError e]))
    | None => ret None
    end in
  if gzip then
    match gz b with
    | inr e => ret (Some e)
    | inl b' => upload (k ++ ".gz")%string b'
    end
  else upload k b.

(** One step of a function that returns early on an error. *)
Definition orReturn (m : Go (option error)) (k : Go (option error))
  : Go (option error) :=
  r <- m;;
  match r with
  | Some e => ret (Some e)
  | None => k
  end.

(** The body of [for _, r := range rs]. *)
Definition writeResult (w : AzureBlobWriter) (cli : BlobStorageClient)
    (r : ScanResult) (continue : Go (option error)) : Go (option error) :=
  let key := ReportKeyName r in
  let afterJSON :=
    let afterList :=
      if FormatFullText w then
        orReturn (createBlockBlob cli (key ++ "_full.txt")%string
                                  (formatFullPlainText r) (Gzip w))
                 continue
      else continue in
    if FormatList w then
      orReturn (createBlockBlob cli (key ++ "_short.txt")%string (formatList r)
                                (Gzip w))
               afterList
    else afterList in
  if FormatJSON w then
    match jsonMarshal r with
    | inr e => ret (Some (Errorf "Failed to Marshal to JSON: %w" [ArgError e]))
    | inl b =>
        orReturn (createBlockBlob cli (key ++ ".json")%string b (Gzip w)) afterJSON
    end
  else afterJSON.

Fixpoint writeResults (w : AzureBlobWriter) (cli : BlobStorageClient)
    (rs : list ScanResult) : Go (option error) :=
  match rs with
  | [] => ret None
  | r :: rs' => writeResult w cli r (writeResults w cli rs')
  end.

(** [Write]: the result is the returned error, [None] for nil. *)
Definition Write (w : AzureBlobWriter) (rs : list ScanResult)
  : Go (option error) :=
  match rs with
  | [] => ret None
  | r0 :: _ =>
      c <- getBlobClient;;
      match c with
      | inr e => ret (Some e)
      | inl cli =>
          let loop := writeResults w cli rs in
          if FormatOneLineText w then
            let timestr := ScannedAtRFC3339 r0 in
            (* fmt.Sprintf(timestr + "/summary.txt"): an RFC3339 time has no
               verb, the format is printed as it is *)
            let k := (timestr ++ "/summary.txt")%string in
            let text := formatOneLineSummary rs in
            orReturn (createBlockBlob cli k text (Gzip w)) loop
          else loop
      end
  end.

End WithWorld.

End AzureBlob.

(** * Concrete configurations and worlds used in the examples *)

Module Examples.

Import Detector.

Definition sqlite3At (path : string) : DictConf :=
  {| Type_ := "sqlite3"; URL := EmptyString; SQLite3Path := path |}.

(** Every database is a local sqlite3 file with a path of its own. *)
Definition cnf0 : DBClientConf :=
  {| CveDictCnf := sqlite3At "/opt/vuls/cve.sqlite3";
     OvalDictCnf := sqlite3At "/opt/vuls/oval.sqlite3";
     GostCnf := sqlite3At "/opt/vuls/gost.sqlite3";
     ExploitCnf := sqlite3At "/opt/vuls/go-exploitdb.sqlite3";
     MetasploitCnf := sqlite3At "/opt/vuls/go-msfdb.sqlite3";
     DebugSQL := false |}.

(** A world that does not change: no database is fetched via HTTP, the
    files in [missing] do not exist, each driver answers [drv], each close
    answers [cls]. *)
Definition fixedWorld (missing : list string)
    (drv : ResourceKind -> OpenResult)
    (cls : ResourceKind -> option error) : World :=
  {| IsFetchViaHTTP := fun _ _ => false;
     statNotExist := fun _ path => existsb (String.eqb path) missing;
     driverNewDB := fun _ k _ _ _ => drv k;
     driverCloseDB := fun _ k _ => cls k |}.

Definition handleOf (k : ResourceKind) : Handle :=
  match k with
  | Cve => 1 | Oval => 2 | Gost => 3 | Exploit => 4 | Metasploit => 5
  end.

Definition opens (k : ResourceKind) : OpenResult := (Some (handleOf k), false, None).
Definition busy : error := ExternalError "database is locked".
Definition corrupt : error := ExternalError "file is not a database".
Definition lockedResult : OpenResult := (None, true, Some busy).
Definition failedResult : OpenResult := (None, false, Some corrupt).

(** All five open. *)
Definition wAllOpen : World := fixedWorld [] opens (fun _ => None).


(** The CVE dictionary is locked. *)
Definition wCveLocked : World :=
  fixedWorld [] (fun k => match k with Cve => lockedResult | _ => opens k end)
             (fun _ => None).

(** The CVE dictionary fails to open, without a lock. *)
Definition wCveFailed : World :=
  fixedWorld [] (fun k => match k with Cve => failedResult | _ => opens k end)
             (fun _ => None).

(** The Gost database is locked. *)
Definition wGostLocked : World :=
  fixedWorld [] (fun k => match k with Gost => lockedResult | _ => opens k end)
             (fun _ => None).

(** The OVAL dictionary fails to open, without a lock. *)
Definition wOvalFailed : World :=
  fixedWorld [] (fun k => match k with Oval => failedResult | _ => opens k end)
             (fun _ => None).

(** The OVAL dictionary fails to open and the Gost database is locked. *)
Definition wOvalFailedGostLocked : World :=
  fixedWorld []
    (fun k => match k with
              | Oval => failedResult
              | Gost => lockedResult
              | _ => opens k
              end)
    (fun _ => None).

(** Every driver hands back a handle with the lock flag set and no error. *)
Definition wLockedNoError : World :=
  fixedWorld [] (fun k => (Some (handleOf k), true, None)) (fun _ => None).

(** No database file exists. *)
Definition wNoFiles : World :=
  {| IsFetchViaHTTP := fun _ _ => false;
     statNotExist := fun _ _ => true;
     driverNewDB := fun _ k _ _ _ => opens k;
     driverCloseDB := fun _ _ _ => None |}.

(** Every close fails. *)
Definition wCloseFails : World :=
  fixedWorld [] opens (fun _ => Some (ExternalError "close failed")).

(** A bundle with its five slots open. *)
Definition fullBundle : DBClient :=
  {| CveDB := Some 1; OvalDB := Some 2; GostDB := Some 3;
     ExploitDB := Some 4; MetasploitDB := Some 5 |}.

(** A bundle holding the CVE dictionary only. *)
Definition cveOnly : DBClient :=
  {| CveDB := Some 1; OvalDB := None; GostDB := None;
     ExploitDB := None; MetasploitDB := None |}.

End Examples.


(** * Further readings of the database clients' runs *)

Module DetectorRuns.

Import Detector.

(** The five databases in the order [NewDBClient] opens them. *)
Definition allKinds : list ResourceKind := [Cve; Oval; Gost; Exploit; Metasploit].

(** The path a factory hands to the driver: the URL, replaced by the
    sqlite3 path when the type is sqlite3. *)
Definition driverPath (c : DictConf) : string :=
  if Type_ c =? "sqlite3" then SQLite3Path c else URL c.

(** The error a factory returns for a driver error [e] that came without
    the lock flag, the driver having been opened at [path]. *)
Definition failedWrap (k : ResourceKind) (path : string) (e : error) : error :=
  match k with
  | Cve => Errorf "Failed to init CVE DB. err: %w, path: %s"
                  [ArgError e; ArgString path]
  | Oval => Errorf "Failed to new OVAL DB. err: %w" [ArgError e]
  | Gost | Exploit | Metasploit => e
  end.


(** The bundle with no handle at all. *)
Definition emptyBundle : DBClient :=
  {| CveDB := None; OvalDB := None; GostDB := None;
     ExploitDB := None; MetasploitDB := None |}.

(** A close that returned an error. *)
Definition closeFailed (ev : Event) : bool :=
  match ev with
  | EvCloseDB _ _ (Some _) => true
  | _ => false
  end.

(** The databases whose driver was called, in order, one entry per call. *)
Fixpoint driverOpens (t : Trace) : list ResourceKind :=
  match t with
  | [] => []
  | EvNewDB k _ _ _ _ :: t' => k :: driverOpens t'
  | _ :: t' => driverOpens t'
  end.

Definition kind_eqb (a b : ResourceKind) : bool :=
  match a, b with
  | Cve, Cve | Oval, Oval | Gost, Gost
  | Exploit, Exploit | Metasploit, Metasploit => true
  | _, _ => false
  end.

(** [l] is [ks] with some of its elements left out, the order kept. *)
Fixpoint isSubseq (l ks : list ResourceKind) : bool :=
  match ks with
  | [] => match l with [] => true | _ :: _ => false end
  | k :: ks' =>
      match l with
      | [] => true
      | x :: l' => if kind_eqb x k then isSubseq l' ks' else isSubseq l ks'
      end
  end.

(** Every database is fetched via HTTP. *)
Definition wRemote : World :=
  {| IsFetchViaHTTP := fun _ _ => true;
     statNotExist := fun _ _ => false;
     driverNewDB := fun _ _ _ _ _ => (None, false, None);
     driverCloseDB := fun _ _ _ => None |}.

(** The Gost database lives on a MySQL server. *)
Definition cnfGostMysql : DBClientConf :=
  {| CveDictCnf := Examples.sqlite3At "/opt/vuls/cve.sqlite3";
     OvalDictCnf := Examples.sqlite3At "/opt/vuls/oval.sqlite3";
     GostCnf := {| Type_ := "mysql";
                   URL := "vuls:pw@tcp(db:3306)/gost";
                   SQLite3Path := "/opt/vuls/gost.sqlite3" |};
     ExploitCnf := Examples.sqlite3At "/opt/vuls/go-exploitdb.sqlite3";
     MetasploitCnf := Examples.sqlite3At "/opt/vuls/go-msfdb.sqlite3";
     DebugSQL := true |}.

End DetectorRuns.

(** * reporter.CheckIfAzureContainerExists *)

Module AzureContainer.

Import AzureBlob.

Inductive Event : Type :=
| EvNewBasicClient (accountName accountKey : string)
                   (res : BlobStorageClient + error)
    (* storage.NewBasicClient(...) then api.GetBlobService() *)
| EvListContainers (cli : BlobStorageClient) (res : list string + error).
    (* cli.ListContainers(storage.ListContainersParameters{}): the names of
       r.Containers, in order, or the error *)

Definition Trace := list Event.
Definition Go : Type -> Type := M Event.

Section WithWorld.

Variable Conf : AzureConf.
Variable storageNewBasicClient :
  Trace -> string -> string -> BlobStorageClient + error.
Variable cliListContainers :
  Trace -> BlobStorageClient -> list string + error.

Definition getBlobClient : Go (BlobStorageClient + error) :=
  fun h =>
    let r := storageNewBasicClient h (AccountName Conf) (AccountKey Conf) in
    (r, [EvNewBasicClient (AccountName Conf) (AccountKey Conf) r]).

Definition ListContainers (cli : BlobStorageClient)
  : Go (list string + error) :=
  fun h => let r := cliListContainers h cli in (r, [EvListContainers cli r]).

(** [found := false; for _, con := range r.Containers { if con.Name == ...
    { found = true; break } }] *)
Fixpoint findContainer (names : list string) : bool :=
  match names with
  | [] => false
  | name :: rest =>
      if name =? ContainerName Conf then true else findContainer rest
  end.

Definition CheckIfAzureContainerExists : Go (option error) :=
  c <- getBlobClient;;
  match c with
  | inr e => ret (Some e)
  | inl cli =>
      r <- ListContainers cli;;
      match r with
      | inr e => ret (Some e)
      | inl names =>
          if findContainer names then ret None
          else ret (Some (Errorf "Container not found. Container: %s"
                                 [ArgString (ContainerName Conf)]))
      end
  end.

End WithWorld.

End AzureContainer.

(** * Readings of the Azure Blob writer's runs *)

Module AzureRuns.

Import AzureBlob.

(** The names of the objects whose upload was attempted, in order. *)
Fixpoint uploadedKeys (t : AzureBlob.Trace) : list string :=
  match t with
  | [] => []
  | EvCreateBlockBlob _ _ k _ _ :: t' => k :: uploadedKeys t'
  | _ :: t' => uploadedKeys t'
  end.

(** An Azure call that returned an error. *)
Definition failed (ev : AzureBlob.Event) : bool :=
  match ev with
  | EvNewBasicClient _ _ (inr _) => true
  | EvCreateBlockBlob _ _ _ _ (Some _) => true
  | _ => false
  end.

(** No call follows a call that failed. *)
Fixpoint stopsAtFailure (t : AzureBlob.Trace) : bool :=
  match t with
  | [] => true
  | ev :: t' =>
      if failed ev then match t' with [] => true | _ :: _ => false end
      else stopsAtFailure t'
  end.

Section Keys.

Variable ScanResult : Type.
Variables ScannedAtRFC3339 ReportKeyName : ScanResult -> string.

(** The name an object is stored under. *)
Definition storedKey (w : AzureBlobWriter) (k : string) : string :=
  if Gzip w then (k ++ ".gz")%string else k.

(** The objects of one scan result, in the order [Write] uploads them. *)
Definition resultKeys (w : AzureBlobWriter) (r : ScanResult) : list string :=
  (if FormatJSON w then [storedKey w (ReportKeyName r ++ ".json")%string]
   else []) ++
  (if FormatList w then [storedKey w (ReportKeyName r ++ "_short.txt")%string]
   else []) ++
  (if FormatFullText w
   then [storedKey w (ReportKeyName r ++ "_full.txt")%string]
   else []).

(** The objects of a whole report. *)
Definition reportKeys (w : AzureBlobWriter) (rs : list ScanResult)
  : list string :=
  match rs with
  | [] => []
  | r0 :: _ =>
      (if FormatOneLineText w
       then [storedKey w (ScannedAtRFC3339 r0 ++ "/summary.txt")%string]
       else []) ++
      flat_map (resultKeys w) rs
  end.

End Keys.

Section Runs.

Variable gz : string -> string + error.
Variable Conf : AzureConf.
Variable w : AzureBlobWriter.
Variable cli : BlobStorageClient.

(** An upload made through [cli] into the configured container, whose body
    went through [gz] when the writer compresses. *)
Definition uploadOf (ev : AzureBlob.Event) : Prop :=
  match ev with
  | EvCreateBlockBlob cli' container _ body _ =>
      cli' = cli /\ container = ContainerName Conf /\
      (Gzip w = true -> exists raw, gz raw = inl body)
  | EvNewBasicClient _ _ _ => False
  end.

(** A run that was to upload the objects [keys]: it stops at the first
    failure, uploads an initial part of [keys] in order, uploads them all
    without a failure when it returns nil, and makes only uploads. *)
Definition wellRun (keys : list string) (r : option error * AzureBlob.Trace)
  : Prop :=
  stopsAtFailure (snd r) = true /\
  (exists rest, keys = uploadedKeys (snd r) ++ rest) /\
  (fst r = None ->
   uploadedKeys (snd r) = keys /\
   forallb (fun ev => negb (failed ev)) (snd r) = true) /\
  Forall uploadOf (snd r).

End Runs.

End AzureRuns.

(** * A concrete report and Azure account used in the examples *)

Module AzureExamples.

Import AzureBlob.

(** A scan result is stood for by its host name. *)
Definition scannedAt (host : string) : string := "2021-03-01T10:00:00Z".
Definition keyName (host : string) : string := host.
Definition oneLine (hosts : list string) : string := "summary".
Definition shortText (host : string) : string := ("short " ++ host)%string.
Definition fullText (host : string) : string := ("full " ++ host)%string.
Definition toJSON (host : string) : string + error := inl "{}".
Definition gzipped (b : string) : string + error := inl ("gz:" ++ b)%string.

Definition conf : AzureConf :=
  {| AccountName := "account"; AccountKey := "key"; ContainerName := "vuls" |}.

(** Azure accepts everything. *)
Definition newClient (h : AzureBlob.Trace) (name key : string)
  : BlobStorageClient + error := inl 7.
Definition putBlob (h : AzureBlob.Trace) (cli : BlobStorageClient)
    (container key body : string) : option error := None.

(** JSON and full text, compressed. *)
Definition jsonFullGz : AzureBlobWriter :=
  {| FormatJSON := true; FormatFullText := true; FormatOneLineText := false;
     FormatList := false; Gzip := true |}.

Definition hosts : list string := ["web1"; "db1"].

(** The account holds two containers. *)
Definition listTwo (h : AzureContainer.Trace) (cli : BlobStorageClient)
  : list string + error := inl ["logs"; "vuls"].

End AzureExamples.

(** * Properties of the database clients *)

Import Detector Examples.

(** ** Reading a trace piece by piece *)

Lemma openedHandles_app (t1 t2 : Trace) :
  openedHandles (t1 ++ t2) = openedHandles t1 ++ openedHandles t2.
Proof.
  induction t1 as [| e t1 IH]; simpl; [reflexivity |].
  destruct e as [ | k ty p dbg [[[hd |] l] [err |]] | | | ]; simpl;
    rewrite IH; reflexivity.
Qed.

Lemma closeAttempts_app (t1 t2 : Trace) :
  closeAttempts (t1 ++ t2) = closeAttempts t1 ++ closeAttempts t2.
Proof.
  induction t1 as [| e t1 IH]; simpl; [reflexivity |].
  destruct e; simpl; rewrite IH; reflexivity.
Qed.

Lemma factoryCalls_app (t1 t2 : Trace) :
  factoryCalls (t1 ++ t2) = factoryCalls t1 ++ factoryCalls t2.
Proof.
  induction t1 as [| e t1 IH]; simpl; [reflexivity |].
  destruct e; simpl; rewrite IH; reflexivity.
Qed.

(** ** The factories, one at a time *)

Ltac unfold_factory :=
  unfold factory, NewCveDB, NewOvalDB, NewGostDB, NewExploitDB,
    NewMetasploitDB, newEnrichmentDB, bind, ret, Debugf, Warnf,
    osStatIsNotExist, NewDB, events, value.

Ltac split_cases :=
  repeat match goal with
    | |- context [IsFetchViaHTTP ?w ?k ?c] =>
        destruct (IsFetchViaHTTP w k c) eqn:?; simpl
    | |- context [String.eqb ?a ?b] =>
        destruct (String.eqb a b) eqn:?; simpl
    | |- context [statNotExist ?w ?h ?p] =>
        destruct (statNotExist w h p) eqn:?; simpl
    | |- context [driverNewDB ?w ?h ?k ?ty ?p ?dbg] =>
        destruct (driverNewDB w h k ty p dbg) as [[[?hd |] [|]] [?err |]] eqn:?;
        simpl
    end.

(** A factory returns one of four shapes: nothing, a handle, a lock with its
    error, or an error alone. *)
Lemma factory_shape (w : World) (k : ResourceKind) (cnf : DBClientConf)
    (h : Trace) :
  let r := value (factory w k cnf h) in
  (res_err r = None -> res_locked r = false) /\
  (res_err r <> None -> res_driver r = None).
Proof.
  destruct k; unfold_factory; split_cases; unfold res_err, res_locked, res_driver;
    simpl; split; congruence.
Qed.

Lemma factory_factoryCalls (w : World) (k : ResourceKind) (cnf : DBClientConf)
    (h : Trace) :
  factoryCalls (events (factory w k cnf h)) = [].
Proof.
  destruct k; unfold_factory; split_cases; reflexivity.
Qed.

Lemma factory_closeAttempts (w : World) (k : ResourceKind)
    (cnf : DBClientConf) (h : Trace) :
  closeAttempts (events (factory w k cnf h)) = [].
Proof.
  destruct k; unfold_factory; split_cases; reflexivity.
Qed.

(** The handles a factory opened are the one it returns, if any. *)
Lemma factory_openedHandles (w : World) (k : ResourceKind)
    (cnf : DBClientConf) (h : Trace) :
  openedHandles (events (factory w k cnf h)) =
  slotHandles k (res_driver (value (factory w k cnf h))).
Proof.
  destruct k; unfold_factory; split_cases; subst; reflexivity.
Qed.

(** ** Running NewDBClient, one factory call at a time *)

Ltac unfold_client :=
  unfold NewDBClient, call, warnUnable, bind, ret, Warnf, events, value.

(** Name the result and the events of the next factory call, keep what is
    known of them, and split on the lock flag and the error. *)
Ltac step_call :=
  match goal with
  | |- context [factory ?w ?k ?cnf ?h] =>
      generalize (factory_shape w k cnf h)
                 (factory_factoryCalls w k cnf h)
                 (factory_closeAttempts w k cnf h)
                 (factory_openedHandles w k cnf h);
      destruct (factory w k cnf h) as [[[?d [|]] [?e |]] ?es];
      unfold events, value, res_err, res_locked, res_driver;
      cbn -[factory];
      let Hnl := fresh "Hnl" in
      let Hdr := fresh "Hdr" in
      intros [Hnl Hdr] ? ? ?;
      try (specialize (Hnl eq_refl); discriminate Hnl);
      try (rewrite Hdr in * by discriminate);
      clear Hnl Hdr
  end.

Ltac normalize_trace :=
  repeat (rewrite ?factoryCalls_app, ?closeAttempts_app, ?openedHandles_app;
          simpl);
  repeat match goal with
    | H : factoryCalls ?es = _ |- _ => rewrite H; clear H
    | H : closeAttempts ?es = _ |- _ => rewrite H; clear H
    | H : openedHandles ?es = _ |- _ => rewrite H; clear H
    end;
  simpl.


(** ** Aborting runs *)



(** C5. When the factory of the Critical CVE dictionary fails without the
    lock flag, [NewDBClient] returns no bundle and that very error, and the
    run consists of the CVE factory's own events and the record of its call:
    no factory of an Optional database is called. *)
Theorem NewDBClient_cve_open_failed (w : World) (cnf : DBClientConf)
    (h : Trace) (d : option Handle) (e : error) :
  value (NewCveDB w cnf h) = (d, false, Some e) ->
  value (NewDBClient w cnf h) = (None, false, Some e) /\
  events (NewDBClient w cnf h) =
    events (NewCveDB w cnf h) ++ [EvFactory Cve (d, false, Some e)] /\
  attempted (events (NewDBClient w cnf h)) = [Cve].
Proof.
  unfold attempted. unfold_client.
  change (NewCveDB w cnf h) with (factory w Cve cnf h).
  step_call; intros Hv; inversion Hv; subst.
  normalize_trace. rewrite ?app_nil_r. repeat split; reflexivity.
Qed.

Lemma NewDBClient_cve_open_failed_witness :
  value (NewDBClient wCveFailed cnf0 []) =
    (None, false,
     Some (Errorf "Failed to init CVE DB. err: %w, path: %s"
                  [ArgError corrupt; ArgString "/opt/vuls/cve.sqlite3"])) /\
  attempted (events (NewDBClient wCveFailed cnf0 [])) = [Cve].
Proof.
  destruct (@NewDBClient_cve_open_failed wCveFailed cnf0 [] None
              (Errorf "Failed to init CVE DB. err: %w, path: %s"
                      [ArgError corrupt; ArgString "/opt/vuls/cve.sqlite3"])
              eq_refl) as [Hv [_ Ha]].
  split; [exact Hv | exact Ha].
Defined.




(** The error of a run aborted by a lock, for each database: the message of
    that database, and the sqlite3 path of [lockedPathConf]. *)
Lemma NewDBClient_locked_error (w : World) (cnf : DBClientConf) (h : Trace)
    (k : ResourceKind) (r : OpenResult) :
  In (k, r) (factoryCalls (events (NewDBClient w cnf h))) ->
  res_locked r = true ->
  value (NewDBClient w cnf h) =
    (None, true,
     Some (Errorf (lockedFormat k)
                  [ArgString (SQLite3Path (lockedPathConf k cnf))])).
Proof.
  unfold_client. repeat step_call; normalize_trace;
    intros HIn Hlocked; unfold res_locked in Hlocked;
    repeat (destruct HIn as [HIn | HIn];
            [inversion HIn; subst; simpl in Hlocked;
             try discriminate Hlocked; reflexivity |]);
    contradiction.
Qed.

(** C2, at the failing input: every database has a path of its own and the
    CVE dictionary is locked.  The error that comes back carries the OVAL
    dictionary's path, not the CVE dictionary's. *)
Theorem NewDBClient_cve_locked_names_oval_path :
  value (NewDBClient wCveLocked cnf0 []) =
    (None, true,
     Some (Errorf "CveDB is locked: %s" [ArgString "/opt/vuls/oval.sqlite3"]))
  /\ SQLite3Path (CveDictCnf cnf0) = "/opt/vuls/cve.sqlite3"
  /\ SQLite3Path (OvalDictCnf cnf0) = "/opt/vuls/oval.sqlite3".
Proof. repeat split. Qed.

(** ** Optional databases that fail to open *)

(** C6, as stated, fails: the OVAL dictionary fails to open without a lock,
    then the Gost database is locked; the run is aborted and returns no
    bundle, and the Exploit and Metasploit factories are never called. *)
Lemma NewDBClient_optional_failed_counterexample :
  let run := NewDBClient wOvalFailedGostLocked cnf0 [] in
  (exists r, In (Oval, r) (factoryCalls (events run)) /\
             isOpenFailed r = true) /\
  value run =
    (None, true,
     Some (Errorf "gostDB is locked: %s" [ArgString "/opt/vuls/gost.sqlite3"]))
  /\ attempted (events run) = [Cve; Oval; Gost].
Proof.
  split; [| split; reflexivity].
  eexists. split; [vm_compute; right; left; reflexivity | reflexivity].
Qed.

(** C6, amended. When the factory of an Optional database fails without the
    lock flag, a warning with that database's path and the error is logged
    and the factory of the next database is called.  If moreover no factory
    call of the run reports a lock, the run is not aborted: all five
    factories are called and the result is a bundle, with nil error, whose
    slot for that database is nil. *)
Theorem NewDBClient_optional_open_failed (w : World) (cnf : DBClientConf)
    (h : Trace) (k : ResourceKind) (r : OpenResult) :
  k <> Cve ->
  In (k, r) (factoryCalls (events (NewDBClient w cnf h))) ->
  isOpenFailed r = true ->
  (exists e, res_err r = Some e /\
     In (EvLog LvlWarn (unableFormat k)
               [ArgString (SQLite3Path (confOf k cnf)); ArgError e])
        (events (NewDBClient w cnf h))) /\
  (forall k', next k = Some k' ->
     In k' (attempted (events (NewDBClient w cnf h)))) /\
  (noLock (events (NewDBClient w cnf h)) = true ->
   attempted (events (NewDBClient w cnf h)) =
     [Cve; Oval; Gost; Exploit; Metasploit] /\
   exists b, value (NewDBClient w cnf h) = (Some b, false, None) /\
             slot k b = None).
Proof.
  intros Hk. unfold noLock, attempted. unfold_client.
  repeat step_call; normalize_trace;
    intros HIn Hfail;
    repeat (destruct HIn as [HIn | HIn];
            [inversion HIn; subst; try discriminate Hfail;
             try (exfalso; apply Hk; reflexivity) |]);
    try contradiction.
  all: split; [eexists; split; [reflexivity |];
               repeat (rewrite in_app_iff; simpl); tauto |].
  all: split; [intros k' Hn; inversion Hn; subst; simpl; tauto |].
  all: intros Hnl; try discriminate Hnl.
  all: split; [reflexivity | eexists; split; reflexivity].
Qed.

(** ** The factories and the lock flag *)

(** C4, as stated, fails: the driver of the CVE dictionary reports
    [locked = true] with a handle and a nil error, and [NewCveDB] returns
    that handle with [locked = false]. *)
Lemma factory_lock_dropped_counterexample :
  In (EvNewDB Cve "sqlite3" "/opt/vuls/cve.sqlite3" false (Some 1, true, None))
     (events (factory wLockedNoError Cve cnf0 [])) /\
  value (factory wLockedNoError Cve cnf0 []) = (Some 1, false, None) /\
  isLocked (value (factory wLockedNoError Cve cnf0 [])) = false.
Proof.
  split; [| split; reflexivity].
  vm_compute. right; right; right; left; reflexivity.
Qed.

(** C4, amended. For each of the five databases and whatever the driver's
    [NewDB] returned with [locked = true]: if it came with a non-nil error,
    the factory returns nil, [locked = true] and the wrapped error; if it
    came with a nil error, the factory returns the driver's handle with
    [locked = false]. *)
Theorem factory_lock_reported (w : World) (k : ResourceKind)
    (cnf : DBClientConf) (h : Trace) (dbType path : string) (dbg : bool)
    (r : OpenResult) :
  In (EvNewDB k dbType path dbg r) (events (factory w k cnf h)) ->
  res_locked r = true ->
  value (factory w k cnf h) =
    match res_err r with
    | Some e => (None, true, Some (lockedWrap k path e))
    | None => (res_driver r, false, None)
    end.
Proof.
  destruct k; unfold_factory; split_cases; intros HIn Hl;
    repeat (destruct HIn as [HIn | HIn];
            [inversion HIn; subst; try discriminate Hl; reflexivity |]);
    contradiction.
Qed.

Lemma factory_lock_reported_witness :
  In (EvNewDB Gost "sqlite3" "/opt/vuls/gost.sqlite3" false lockedResult)
     (events (factory wGostLocked Gost cnf0 [])) /\
  value (factory wGostLocked Gost cnf0 []) =
    (None, true, Some (Errorf "gostDB is locked. err: %w" [ArgError busy])).
Proof.
  assert (HIn : In (EvNewDB Gost "sqlite3" "/opt/vuls/gost.sqlite3" false
                            lockedResult)
                   (events (factory wGostLocked Gost cnf0 []))).
  { vm_compute. right; right; left; reflexivity. }
  split; [exact HIn |].
  exact (@factory_lock_reported wGostLocked Gost cnf0 [] "sqlite3"
           "/opt/vuls/gost.sqlite3" false lockedResult HIn eq_refl).
Defined.

(** ** Missing files *)

(** C8. For each of the five databases, the Critical CVE dictionary like
    the Optional ones: with the sqlite3 backend, when the configured file
    does not exist the factory returns a nil handle, [locked = false] and a
    nil error.  It probes the file, logs the advisory naming the path, and
    does not call the driver. *)
Theorem factory_file_absent (w : World) (k : ResourceKind)
    (cnf : DBClientConf) (h : Trace) :
  IsFetchViaHTTP w k (confOf k cnf) = false ->
  Type_ (confOf k cnf) = "sqlite3" ->
  statNotExist w (h ++ preamble k (confOf k cnf))
               (SQLite3Path (confOf k cnf)) = true ->
  factory w k cnf h =
    ((None, false, None),
     preamble k (confOf k cnf) ++
     [EvStat (SQLite3Path (confOf k cnf)) true;
      EvLog LvlWarn (notFoundFormat k)
            [ArgString (SQLite3Path (confOf k cnf))]]).
Proof.
  destruct k; simpl; intros Hhttp Hty Hstat; unfold_factory;
    rewrite Hhttp; rewrite ?Hty in *; simpl; rewrite ?app_nil_r in Hstat;
    rewrite Hstat; reflexivity.
Qed.

Lemma factory_file_absent_witness :
  factory wNoFiles Cve cnf0 [] =
    ((None, false, None),
     [EvLog LvlDebug "open cve-dictionary db (%s)" [ArgString "sqlite3"];
      EvStat "/opt/vuls/cve.sqlite3" true;
      EvLog LvlWarn cveNotFound [ArgString "/opt/vuls/cve.sqlite3"]]).
Proof.
  exact (@factory_file_absent wNoFiles Cve cnf0 [] eq_refl eq_refl eq_refl).
Defined.

Lemma NewDBClient_optional_open_failed_witness :
  In (Oval, (None, false,
             Some (Errorf "Failed to new OVAL DB. err: %w" [ArgError corrupt])))
     (factoryCalls (events (NewDBClient wOvalFailed cnf0 []))) /\
  attempted (events (NewDBClient wOvalFailed cnf0 [])) =
    [Cve; Oval; Gost; Exploit; Metasploit] /\
  exists b, value (NewDBClient wOvalFailed cnf0 []) = (Some b, false, None) /\
            slot Oval b = None.
Proof.
  assert (HIn : In (Oval, (None, false,
                     Some (Errorf "Failed to new OVAL DB. err: %w"
                                  [ArgError corrupt])))
                   (factoryCalls (events (NewDBClient wOvalFailed cnf0 [])))).
  { vm_compute. right; left; reflexivity. }
  split; [exact HIn |].
  assert (Hk : Oval <> Cve) by discriminate.
  destruct (@NewDBClient_optional_open_failed wOvalFailed cnf0 [] Oval _
              Hk HIn eq_refl) as [_ [_ Hrun]].
  exact (Hrun eq_refl).
Defined.

(** ** CloseDB *)

Ltac unfold_close :=
  unfold CloseDB, closeSlot, handleCloseDB, bind, ret, events, value.

(** [CloseDB] calls the close of the CveDB handle and of the OvalDB handle,
    when they are not nil, in that order and whatever happened before. *)
Lemma CloseDB_closeAttempts (w : World) (d : DBClient) (h : Trace) :
  closeAttempts (events (CloseDB w d h)) =
  slotHandles Cve (CveDB d) ++ slotHandles Oval (OvalDB d).
Proof.
  unfold_close.
  destruct (CveDB d) as [c |], (OvalDB d) as [o |]; simpl;
    repeat match goal with
      | |- context [driverCloseDB ?w ?h ?k ?hd] =>
          destruct (driverCloseDB w h k hd); simpl
      end; reflexivity.
Qed.

(** A failed close of the CveDB handle does not stop the close of the
    OvalDB handle, and the returned list holds the failure of every close
    that was made. *)
Lemma CloseDB_errors (w : World) (d : DBClient) (h : Trace) :
  value (CloseDB w d h) = flat_map closeFailure (events (CloseDB w d h)).
Proof.
  unfold_close.
  destruct (CveDB d) as [c |], (OvalDB d) as [o |]; simpl;
    repeat match goal with
      | |- context [driverCloseDB ?w ?h ?k ?hd] =>
          destruct (driverCloseDB w h k hd); simpl
      end; reflexivity.
Qed.

(** C7, at the failing input: a bundle whose five slots hold handles 1 to
    5.  In every world [CloseDB] makes two close attempts, on the CVE and OVAL
    handles; the Gost, Exploit and Metasploit handles get none. *)
Theorem CloseDB_full_bundle_closes_two (w : World) (h : Trace) :
  closeAttempts (events (CloseDB w fullBundle h)) = [(Cve, 1); (Oval, 2)] /\
  ~ In (Gost, 3) (closeAttempts (events (CloseDB w fullBundle h))) /\
  ~ In (Exploit, 4) (closeAttempts (events (CloseDB w fullBundle h))) /\
  ~ In (Metasploit, 5) (closeAttempts (events (CloseDB w fullBundle h))).
Proof.
  rewrite CloseDB_closeAttempts. simpl.
  repeat split; try reflexivity; intros [H | [H | []]]; discriminate H.
Qed.

(** C9, as stated, fails: after a first [CloseDB] on a bundle holding the
    CVE handle 1, a second [CloseDB] on the same bundle closes handle 1
    again. *)
Lemma CloseDB_twice_counterexample :
  let first := CloseDB wAllOpen cveOnly [] in
  let second := CloseDB wAllOpen cveOnly ([] ++ events first) in
  events first = [EvCloseDB Cve 1 None] /\
  events second = [EvCloseDB Cve 1 None] /\
  closeAttempts (events second) <> [].
Proof. repeat split. discriminate. Qed.

(** C9, amended. A second [CloseDB] on the same bundle repeats the close
    attempts of the first: it closes again the CveDB handle and the OvalDB
    handle when they are not nil, and makes no close attempt only when both
    are nil. *)
Theorem CloseDB_twice_repeats (w : World) (d : DBClient) (h : Trace) :
  let first := CloseDB w d h in
  let second := CloseDB w d (h ++ events first) in
  closeAttempts (events second) = closeAttempts (events first) /\
  closeAttempts (events second) =
    slotHandles Cve (CveDB d) ++ slotHandles Oval (OvalDB d).
Proof.
  cbv zeta. rewrite !CloseDB_closeAttempts. split; reflexivity.
Qed.

(** * Properties of the Azure Blob writer *)

Section AzureBlobWrite.

Import AzureBlob.

Variable ScanResult : Type.
Variables ScannedAtRFC3339 ReportKeyName : ScanResult -> string.
Variable formatOneLineSummary : list ScanResult -> string.
Variables formatList formatFullPlainText : ScanResult -> string.
Variable jsonMarshal : ScanResult -> string + error.
Variable gz : string -> string + error.
Variable Conf : AzureConf.
Variable storageNewBasicClient :
  AzureBlob.Trace -> string -> string -> BlobStorageClient + error.
Variable blobCreateBlockBlobFromReader :
  AzureBlob.Trace -> BlobStorageClient -> string -> string -> string ->
  option error.

(** C10. For the empty sequence of scan results, [Write] returns nil and
    performs no event: no storage client is built and nothing is uploaded,
    whatever the format flags and the Gzip flag of the writer, the
    configuration and the history. *)
Theorem Write_empty (w : AzureBlobWriter) (h : AzureBlob.Trace) :
  Write ScannedAtRFC3339 ReportKeyName formatOneLineSummary formatList
        formatFullPlainText jsonMarshal gz Conf storageNewBasicClient
        blobCreateBlockBlobFromReader w [] h = (None, []).
Proof. reflexivity. Qed.

End AzureBlobWrite.

(** With one scan result and the JSON format alone, [Write] builds the
    client and uploads one object. *)
Example Write_one_result_json :
  AzureBlob.Write
    (fun _ : string => "2021-03-01T10:00:00Z") (fun r => r)
    (fun _ => "summary") (fun r => r) (fun r => r)
    (fun _ => inl "{}") (fun b => inl b)
    {| AzureBlob.AccountName := "account"; AzureBlob.AccountKey := "key";
       AzureBlob.ContainerName := "vuls" |}
    (fun _ _ _ => inl 0) (fun _ _ _ _ _ => None)
    {| AzureBlob.FormatJSON := true; AzureBlob.FormatFullText := false;
       AzureBlob.FormatOneLineText := false; AzureBlob.FormatList := false;
       AzureBlob.Gzip := false |}
    ["host1"] [] =
  (None,
   [AzureBlob.EvNewBasicClient "account" "key" (inl 0);
    AzureBlob.EvCreateBlockBlob 0 "vuls" "host1.json" "{}" None]).
Proof. reflexivity. Qed.

(** * More on the factories *)

Import DetectorRuns.

(** X1. A database fetched via HTTP is not opened: whatever its type and
    paths, its factory returns a nil handle, [locked = false] and a nil
    error, and performs nothing at all: no probe, no log, no driver call. *)
Theorem factory_remote_skipped (w : World) (k : ResourceKind)
    (cnf : DBClientConf) (h : Trace) :
  IsFetchViaHTTP w k (confOf k cnf) = true ->
  factory w k cnf h = ((None, false, None), []).
Proof.
  destruct k; simpl; intros Hhttp; unfold_factory; rewrite Hhttp; reflexivity.
Qed.

Lemma factory_remote_skipped_witness :
  factory wRemote Exploit cnf0 [] = ((None, false, None), []).
Proof.
  exact (@factory_remote_skipped wRemote Exploit cnf0 [] eq_refl).
Defined.

(** X2. Whatever the world answers, a factory returns one of four things:
    nothing at all, a handle alone, a lock with an error and no handle, or
    an error alone with no handle.  It never returns a handle together with
    an error, nor the lock flag without an error. *)
Theorem factory_result_shape (w : World) (k : ResourceKind)
    (cnf : DBClientConf) (h : Trace) :
  value (factory w k cnf h) = (None, false, None) \/
  (exists hd, value (factory w k cnf h) = (Some hd, false, None)) \/
  (exists e, value (factory w k cnf h) = (None, true, Some e)) \/
  (exists e, value (factory w k cnf h) = (None, false, Some e)).
Proof.
  destruct k; unfold_factory; split_cases; eauto.
Qed.

(** X3. What a factory returns once it has called the driver is fixed by
    the driver's answer.  An error comes back with a nil handle and the
    driver's lock flag, wrapped as that database wraps it (the Gost, Exploit
    and Metasploit factories hand back an error without lock unchanged);
    without an error the driver's handle comes back with [locked = false]. *)
Theorem factory_result_from_driver (w : World) (k : ResourceKind)
    (cnf : DBClientConf) (h : Trace) (dbType path : string) (dbg : bool)
    (r : OpenResult) :
  In (EvNewDB k dbType path dbg r) (events (factory w k cnf h)) ->
  value (factory w k cnf h) =
    match res_err r with
    | Some e =>
        (None, res_locked r,
         Some (if res_locked r then lockedWrap k path e
               else failedWrap k path e))
    | None => (res_driver r, false, None)
    end.
Proof.
  destruct k; unfold_factory; split_cases; intros HIn;
    repeat (destruct HIn as [HIn | HIn];
            [inversion HIn; subst; reflexivity |]);
    contradiction.
Qed.

Lemma factory_result_from_driver_witness :
  In (EvNewDB Oval "sqlite3" "/opt/vuls/oval.sqlite3" false failedResult)
     (events (factory wOvalFailed Oval cnf0 [])) /\
  value (factory wOvalFailed Oval cnf0 []) =
    (None, false,
     Some (Errorf "Failed to new OVAL DB. err: %w" [ArgError corrupt])).
Proof.
  assert (HIn : In (EvNewDB Oval "sqlite3" "/opt/vuls/oval.sqlite3" false
                            failedResult)
                   (events (factory wOvalFailed Oval cnf0 []))).
  { vm_compute. right; right; left; reflexivity. }
  split; [exact HIn |].
  exact (@factory_result_from_driver wOvalFailed Oval cnf0 [] "sqlite3"
           "/opt/vuls/oval.sqlite3" false failedResult HIn).
Defined.

(** X4. A factory calls only its own driver, and only for a database that
    is not fetched via HTTP: with the configured type, the [DebugSQL] flag,
    and as path the sqlite3 path when the type is sqlite3 and the URL for
    every other type. *)
Theorem factory_driver_arguments (w : World) (k : ResourceKind)
    (cnf : DBClientConf) (h : Trace) (k' : ResourceKind)
    (dbType path : string) (dbg : bool) (r : OpenResult) :
  In (EvNewDB k' dbType path dbg r) (events (factory w k cnf h)) ->
  k' = k /\
  dbType = Type_ (confOf k cnf) /\
  path = driverPath (confOf k cnf) /\
  dbg = DebugSQL cnf /\
  IsFetchViaHTTP w k (confOf k cnf) = false.
Proof.
  unfold driverPath.
  destruct k; simpl; unfold_factory; split_cases; intros HIn;
    repeat (destruct HIn as [HIn | HIn];
            [inversion HIn; subst; auto |]);
    contradiction.
Qed.

Lemma factory_driver_arguments_witness :
  In (EvNewDB Gost "mysql" "vuls:pw@tcp(db:3306)/gost" true (opens Gost))
     (events (factory wAllOpen Gost cnfGostMysql [])) /\
  driverPath (confOf Gost cnfGostMysql) = "vuls:pw@tcp(db:3306)/gost".
Proof.
  assert (HIn : In (EvNewDB Gost "mysql" "vuls:pw@tcp(db:3306)/gost" true
                            (opens Gost))
                   (events (factory wAllOpen Gost cnfGostMysql []))).
  { vm_compute. right; left; reflexivity. }
  split; [exact HIn |].
  destruct (@factory_driver_arguments wAllOpen Gost cnfGostMysql [] Gost
              "mysql" "vuls:pw@tcp(db:3306)/gost" true (opens Gost) HIn)
    as [_ [_ [Hp _]]].
  symmetry; exact Hp.
Defined.

(** X5. A factory probes the file system only for a sqlite3 database that
    is not fetched via HTTP, and the path it probes is the sqlite3 path:
    for every other type no file is looked at. *)
Theorem factory_probe_only_sqlite3 (w : World) (k : ResourceKind)
    (cnf : DBClientConf) (h : Trace) (path : string) (b : bool) :
  In (EvStat path b) (events (factory w k cnf h)) ->
  Type_ (confOf k cnf) = "sqlite3" /\
  path = SQLite3Path (confOf k cnf) /\
  IsFetchViaHTTP w k (confOf k cnf) = false.
Proof.
  destruct k; simpl; unfold_factory; split_cases; intros HIn;
    repeat (destruct HIn as [HIn | HIn];
            [inversion HIn; subst;
             repeat split; auto; apply String.eqb_eq; assumption |]);
    contradiction.
Qed.

Lemma factory_probe_only_sqlite3_witness :
  In (EvStat "/opt/vuls/oval.sqlite3" false)
     (events (factory wAllOpen Oval cnf0 [])) /\
  Type_ (confOf Oval cnf0) = "sqlite3".
Proof.
  assert (HIn : In (EvStat "/opt/vuls/oval.sqlite3" false)
                   (events (factory wAllOpen Oval cnf0 []))).
  { vm_compute. left; reflexivity. }
  split; [exact HIn |].
  exact (proj1 (@factory_probe_only_sqlite3 wAllOpen Oval cnf0 []
                  "/opt/vuls/oval.sqlite3" false HIn)).
Defined.

(** * More on NewDBClient *)

(** X6. [NewDBClient] returns either a bundle with [locked = false] and a
    nil error, or no bundle with a non-nil error: never a bundle together
    with an error, never nil with a nil error. *)
Theorem NewDBClient_result_shape (w : World) (cnf : DBClientConf) (h : Trace) :
  (exists b, value (NewDBClient w cnf h) = (Some b, false, None)) \/
  (exists l e, value (NewDBClient w cnf h) = (None, l, Some e)).
Proof.
  unfold_client. repeat step_call; eauto.
Qed.

(** X7. The [locked] flag that [NewDBClient] returns is true exactly when
    one of the factory calls of the run reported a lock. *)
Theorem NewDBClient_locked_flag (w : World) (cnf : DBClientConf) (h : Trace) :
  snd (fst (value (NewDBClient w cnf h))) =
  negb (noLock (events (NewDBClient w cnf h))).
Proof.
  unfold noLock. unfold_client.
  repeat step_call; normalize_trace; reflexivity.
Qed.

(** X8. [NewDBClient] calls the factories in one fixed order, CVE, OVAL,
    Gost, Exploit, Metasploit, each at most once, starting with the CVE
    dictionary: the databases attempted in a run are the first [n] of that
    list, for some [n] from 1 to 5. *)
Theorem NewDBClient_attempt_order (w : World) (cnf : DBClientConf) (h : Trace) :
  exists n, 1 <= n <= 5 /\
            attempted (events (NewDBClient w cnf h)) = firstn n allKinds.
Proof.
  unfold attempted. unfold_client.
  repeat step_call; normalize_trace;
    first [ exists 1; split; [split; repeat constructor | reflexivity]
          | exists 2; split; [split; repeat constructor | reflexivity]
          | exists 3; split; [split; repeat constructor | reflexivity]
          | exists 4; split; [split; repeat constructor | reflexivity]
          | exists 5; split; [split; repeat constructor | reflexivity] ].
Qed.

(** X9. When [NewDBClient] returns a bundle, all five factories were called,
    none reported a lock, each slot of the bundle holds exactly the handle
    its factory returned, and the CVE factory returned no error: the
    Critical slot is never what is left of a suppressed failure. *)
Theorem NewDBClient_success_slots (w : World) (cnf : DBClientConf) (h : Trace)
    (b : DBClient) :
  value (NewDBClient w cnf h) = (Some b, false, None) ->
  attempted (events (NewDBClient w cnf h)) = allKinds /\
  (forall k r, In (k, r) (factoryCalls (events (NewDBClient w cnf h))) ->
               slot k b = res_driver r /\ res_locked r = false) /\
  (forall r, In (Cve, r) (factoryCalls (events (NewDBClient w cnf h))) ->
             res_err r = None).
Proof.
  unfold attempted. unfold_client.
  repeat step_call; normalize_trace; intros Hv; try discriminate Hv;
    inversion Hv; subst; clear Hv;
    (split; [reflexivity | split; [intros k r HIn | intros r HIn]]);
    repeat (destruct HIn as [HIn | HIn];
            [inversion HIn; subst; split; reflexivity
             || reflexivity || discriminate |]);
    try contradiction.
Qed.

Lemma NewDBClient_success_slots_witness :
  value (NewDBClient wOvalFailed cnf0 []) =
    (Some {| CveDB := Some 1; OvalDB := None; GostDB := Some 3;
             ExploitDB := Some 4; MetasploitDB := Some 5 |}, false, None) /\
  attempted (events (NewDBClient wOvalFailed cnf0 [])) = allKinds.
Proof.
  split; [reflexivity |].
  exact (proj1 (@NewDBClient_success_slots wOvalFailed cnf0 []
                  {| CveDB := Some 1; OvalDB := None; GostDB := Some 3;
                     ExploitDB := Some 4; MetasploitDB := Some 5 |} eq_refl)).
Defined.



Lemma ends_single {A} (x : A) : exists before, [x] = before ++ [x].
Proof. exists []; reflexivity. Qed.

Lemma ends_app {A} (x : A) (l1 l2 : list A) :
  (exists before, l2 = before ++ [x]) ->
  exists before, l1 ++ l2 = before ++ [x].
Proof.
  intros [b Hb]. exists (l1 ++ b). rewrite Hb. apply app_assoc.
Qed.

Lemma ends_cons {A} (x a : A) (l : list A) :
  (exists before, l = before ++ [x]) ->
  exists before, a :: l = before ++ [x].
Proof. apply (@ends_app A x [a] l). Qed.

Ltac ends_with :=
  repeat first [apply ends_single | apply ends_app | apply ends_cons].

(** X11. A lock ends the run on the spot: when a factory call reports a
    lock, the record of that call is the last event of the run.  No warning
    is logged after it and no further database is probed or opened. *)
Theorem NewDBClient_stops_at_lock (w : World) (cnf : DBClientConf) (h : Trace)
    (k : ResourceKind) (r : OpenResult) :
  In (k, r) (factoryCalls (events (NewDBClient w cnf h))) ->
  res_locked r = true ->
  exists before, events (NewDBClient w cnf h) = before ++ [EvFactory k r].
Proof.
  unfold_client. repeat step_call.
  all: rewrite ?app_nil_r.
  all: normalize_trace; intros HIn Hlocked; unfold res_locked in Hlocked.
  all: repeat (destruct HIn as [HIn | HIn];
               [inversion HIn; subst; simpl in Hlocked;
                try discriminate Hlocked; ends_with |]).
  all: contradiction.
Qed.

Lemma NewDBClient_stops_at_lock_witness :
  exists before,
    events (NewDBClient wGostLocked cnf0 []) =
    before ++ [EvFactory Gost
                 (None, true,
                  Some (Errorf "gostDB is locked. err: %w" [ArgError busy]))].
Proof.
  apply (@NewDBClient_stops_at_lock wGostLocked cnf0 [] Gost).
  - vm_compute. right; right; left; reflexivity.
  - reflexivity.
Defined.

(** X12. When all five databases are fetched via HTTP, [NewDBClient] opens
    nothing: it returns the bundle with five nil slots and a nil error, and
    the run holds the five call records only: no probe, no log, no driver
    call. *)
Theorem NewDBClient_all_remote (w : World) (cnf : DBClientConf) (h : Trace) :
  (forall k, IsFetchViaHTTP w k (confOf k cnf) = true) ->
  NewDBClient w cnf h =
    ((Some emptyBundle, false, None),
     map (fun k => EvFactory k (None, false, None)) allKinds).
Proof.
  intros Hhttp.
  assert (Hf : forall k h', factory w k cnf h' = ((None, false, None), [])).
  { intros k h'. pose proof (Hhttp k) as Hk.
    destruct k; simpl in Hk; unfold_factory; rewrite Hk; reflexivity. }
  unfold_client. repeat (rewrite Hf; cbn -[factory]). reflexivity.
Qed.

Lemma NewDBClient_all_remote_witness :
  NewDBClient wRemote cnf0 [] =
    ((Some emptyBundle, false, None),
     [EvFactory Cve (None, false, None); EvFactory Oval (None, false, None);
      EvFactory Gost (None, false, None); EvFactory Exploit (None, false, None);
      EvFactory Metasploit (None, false, None)]).
Proof.
  exact (@NewDBClient_all_remote wRemote cnf0 [] (fun _ => eq_refl)).
Defined.

(** * More on CloseDB *)

(** X13. [CloseDB] reports every close that failed, in the order of the
    closes, each wrapped in the message of its database; a failure of the
    CVE close does not hide one of the OVAL close.  The list it returns is
    empty exactly when every close it made succeeded. *)
Theorem CloseDB_reports_every_failure (w : World) (d : DBClient) (h : Trace) :
  value (CloseDB w d h) = flat_map closeFailure (events (CloseDB w d h)) /\
  (value (CloseDB w d h) = [] <->
   forallb (fun ev => negb (closeFailed ev)) (events (CloseDB w d h)) = true).
Proof.
  unfold_close.
  destruct (CveDB d) as [c |], (OvalDB d) as [o |]; simpl;
    repeat match goal with
      | |- context [driverCloseDB ?w ?h ?k ?hd] =>
          destruct (driverCloseDB w h k hd); simpl
      end;
    (split; [reflexivity | split; intros H; (reflexivity || discriminate H)]).
Qed.



(** * More on the Azure Blob writer *)

Section AzureBlobRuns.

Import AzureBlob AzureRuns.

Variable ScanResult : Type.
Variables ScannedAtRFC3339 ReportKeyName : ScanResult -> string.
Variable formatOneLineSummary : list ScanResult -> string.
Variables formatList formatFullPlainText : ScanResult -> string.
Variable jsonMarshal : ScanResult -> string + error.
Variable gz : string -> string + error.
Variable Conf : AzureConf.
Variable storageNewBasicClient :
  AzureBlob.Trace -> string -> string -> BlobStorageClient + error.
Variable blobCreateBlockBlobFromReader :
  AzureBlob.Trace -> BlobStorageClient -> string -> string -> string ->
  option error.
Variable w : AzureBlobWriter.

Lemma wellRun_ret_nil (cli : BlobStorageClient) :
  wellRun gz Conf w cli [] (None, []).
Proof.
  repeat split; simpl; auto. exists []; reflexivity.
Qed.

Lemma wellRun_error (cli : BlobStorageClient) (keys : list string)
    (e : error) :
  wellRun gz Conf w cli keys (Some e, []).
Proof.
  repeat split; simpl; auto; try discriminate. exists keys; reflexivity.
Qed.

(** One upload followed by the rest of the run. *)
Lemma wellRun_upload (cli : BlobStorageClient) (k b : string)
    (keys : list string) (continue : AzureBlob.Go (option error)) :
  (forall h, wellRun gz Conf w cli keys (continue h)) ->
  forall h,
    wellRun gz Conf w cli (storedKey w k :: keys)
      (orReturn (createBlockBlob gz Conf blobCreateBlockBlobFromReader
                                 cli k b (Gzip w))
                continue h).
Proof.
  intros Hk h. unfold orReturn, createBlockBlob, storedKey, bind, ret.
  destruct (Gzip w) eqn:Hgz.
  - destruct (gz b) as [b' | e] eqn:Hb; simpl;
      [| apply wellRun_error].
    destruct (blobCreateBlockBlobFromReader h cli (ContainerName Conf)
                (k ++ ".gz")%string b') as [e |] eqn:Hup; simpl.
    + repeat split; simpl; try rewrite Hup; simpl; auto; try discriminate.
      * exists keys; reflexivity.
      * constructor; [| constructor]. simpl. eauto.
    + match goal with
      | |- context [continue ?h'] =>
          destruct (Hk h') as [Hs [[rest Hr] [Hn Hf]]];
          destruct (continue h') as [v es]
      end; simpl in *.
      repeat split; simpl; try rewrite Hup; simpl; auto.
      * exists rest. rewrite Hr. reflexivity.
      * f_equal. apply Hn; assumption.
      * apply Hn; assumption.
      * constructor; [simpl; eauto | assumption].
  - destruct (blobCreateBlockBlobFromReader h cli (ContainerName Conf) k b)
      as [e |] eqn:Hup; simpl.
    + repeat split; simpl; try rewrite Hup; simpl; auto; try discriminate.
      * exists keys; reflexivity.
      * constructor; [| constructor]. simpl.
        repeat split; auto; intros; congruence.
    + match goal with
      | |- context [continue ?h'] =>
          destruct (Hk h') as [Hs [[rest Hr] [Hn Hf]]];
          destruct (continue h') as [v es]
      end; simpl in *.
      repeat split; simpl; try rewrite Hup; simpl; auto.
      * exists rest. rewrite Hr. reflexivity.
      * f_equal. apply Hn; assumption.
      * apply Hn; assumption.
      * constructor; [simpl; repeat split; auto; intros; congruence
                     | assumption].
Qed.

Lemma writeResult_run (cli : BlobStorageClient) (r : ScanResult)
    (keys : list string) (continue : AzureBlob.Go (option error)) :
  (forall h, wellRun gz Conf w cli keys (continue h)) ->
  forall h,
    wellRun gz Conf w cli (resultKeys ReportKeyName w r ++ keys)
      (writeResult ReportKeyName formatList formatFullPlainText jsonMarshal
                   gz Conf blobCreateBlockBlobFromReader w cli r continue h).
Proof.
  intros Hk h. unfold writeResult, resultKeys.
  destruct (FormatJSON w), (FormatList w), (FormatFullText w); simpl;
    try destruct (jsonMarshal r) as [b | e]; simpl;
    try (apply wellRun_error);
    repeat (apply wellRun_upload; try intros ?h);
    apply Hk.
Qed.

Lemma writeResults_run (cli : BlobStorageClient) (rs : list ScanResult) :
  forall h,
    wellRun gz Conf w cli (flat_map (resultKeys ReportKeyName w) rs)
      (writeResults ReportKeyName formatList formatFullPlainText jsonMarshal
                    gz Conf blobCreateBlockBlobFromReader w cli rs h).
Proof.
  induction rs as [| r rs IH]; simpl.
  - intros h. apply wellRun_ret_nil.
  - apply writeResult_run. exact IH.
Qed.

(** A run of [Write] on a report that is not empty: the client is built,
    and if that went well the uploads follow. *)
Lemma Write_run (r0 : ScanResult) (rs : list ScanResult) (h : AzureBlob.Trace) :
  let c := storageNewBasicClient h (AccountName Conf) (AccountKey Conf) in
  let run := Write ScannedAtRFC3339 ReportKeyName formatOneLineSummary
                   formatList formatFullPlainText jsonMarshal gz Conf
                   storageNewBasicClient blobCreateBlockBlobFromReader
                   w (r0 :: rs) h in
  match c with
  | inr e => run = (Some e, [EvNewBasicClient (AccountName Conf)
                                              (AccountKey Conf) (inr e)])
  | inl cli =>
      exists v es,
        run = (v, EvNewBasicClient (AccountName Conf) (AccountKey Conf)
                                   (inl cli) :: es) /\
        wellRun gz Conf w cli
                (reportKeys ScannedAtRFC3339 ReportKeyName w (r0 :: rs))
                (v, es)
  end.
Proof.
  cbv zeta. unfold Write, getBlobClient, bind, ret.
  destruct (storageNewBasicClient h (AccountName Conf) (AccountKey Conf))
    as [cli | e] eqn:Hc; [| reflexivity].
  cbv beta iota.
  match goal with
  | |- context [?f (h ++ [?ev])] =>
      assert (Hrun : wellRun gz Conf w cli
                (reportKeys ScannedAtRFC3339 ReportKeyName w (r0 :: rs))
                (f (h ++ [ev])));
      [| destruct (f (h ++ [ev])) as [v es];
         exists v, es; split; [reflexivity | exact Hrun]]
  end.
  unfold reportKeys. destruct (FormatOneLineText w).
  - apply wellRun_upload. apply writeResults_run.
  - apply writeResults_run.
Qed.

(** X15. [Write] stops at the first Azure call that fails: whether it is
    the construction of the client or an upload, no call follows it. *)
Theorem Write_stops_at_failure (rs : list ScanResult) (h : AzureBlob.Trace) :
  stopsAtFailure (events (Write ScannedAtRFC3339 ReportKeyName formatOneLineSummary
                      formatList formatFullPlainText jsonMarshal gz Conf
                      storageNewBasicClient blobCreateBlockBlobFromReader
                      w rs h)) = true.
Proof.
  destruct rs as [| r0 rs]; [reflexivity |].
  pose proof (Write_run r0 rs h) as Hrun. cbv zeta in Hrun.
  destruct (storageNewBasicClient h (AccountName Conf) (AccountKey Conf))
    as [cli | e].
  - destruct Hrun as [v [es [Heq [Hs _]]]]. rewrite Heq. exact Hs.
  - rewrite Hrun. reflexivity.
Qed.

(** X16. The objects that [Write] uploads are always an initial part of the
    objects of the report, in their order: the one-line summary first when
    asked for, then for each scan result its JSON, short and full text, as
    far as each format is asked for. *)
Theorem Write_uploads_in_order (rs : list ScanResult) (h : AzureBlob.Trace) :
  exists rest,
    reportKeys ScannedAtRFC3339 ReportKeyName w rs =
    uploadedKeys (events (Write ScannedAtRFC3339 ReportKeyName formatOneLineSummary
                      formatList formatFullPlainText jsonMarshal gz Conf
                      storageNewBasicClient blobCreateBlockBlobFromReader
                      w rs h)) ++ rest.
Proof.
  destruct rs as [| r0 rs]; [exists []; reflexivity |].
  pose proof (Write_run r0 rs h) as Hrun. cbv zeta in Hrun.
  destruct (storageNewBasicClient h (AccountName Conf) (AccountKey Conf))
    as [cli | e].
  - destruct Hrun as [v [es [Heq [_ [Hp _]]]]]. rewrite Heq. exact Hp.
  - rewrite Hrun. simpl. eexists; reflexivity.
Qed.

(** X17. When [Write] returns nil, every object of the report was uploaded,
    once and in order, and no Azure call of the run failed. *)
Theorem Write_success_uploads_all (rs : list ScanResult)
    (h : AzureBlob.Trace) :
  value (Write ScannedAtRFC3339 ReportKeyName formatOneLineSummary
                      formatList formatFullPlainText jsonMarshal gz Conf
                      storageNewBasicClient blobCreateBlockBlobFromReader
                      w rs h) = None ->
  uploadedKeys (events (Write ScannedAtRFC3339 ReportKeyName formatOneLineSummary
                      formatList formatFullPlainText jsonMarshal gz Conf
                      storageNewBasicClient blobCreateBlockBlobFromReader
                      w rs h)) =
    reportKeys ScannedAtRFC3339 ReportKeyName w rs /\
  forallb (fun ev => negb (failed ev)) (events (Write ScannedAtRFC3339 ReportKeyName formatOneLineSummary
                      formatList formatFullPlainText jsonMarshal gz Conf
                      storageNewBasicClient blobCreateBlockBlobFromReader
                      w rs h)) = true.
Proof.
  destruct rs as [| r0 rs]; [split; reflexivity |].
  pose proof (Write_run r0 rs h) as Hrun. cbv zeta in Hrun.
  destruct (storageNewBasicClient h (AccountName Conf) (AccountKey Conf))
    as [cli | e].
  - destruct Hrun as [v [es [Heq [_ [_ [Hn _]]]]]]. rewrite Heq.
    simpl. intros Hv. exact (Hn Hv).
  - rewrite Hrun. simpl. discriminate.
Qed.

(** X18. Every upload of [Write] goes through the client that
    [getBlobClient] built at the start of the call and into the configured
    container; when the writer compresses, the body uploaded is an output of
    [gz]. *)
Theorem Write_upload_targets (rs : list ScanResult) (h : AzureBlob.Trace)
    (cli : BlobStorageClient) (container key body : string)
    (res : option error) :
  In (EvCreateBlockBlob cli container key body res) (events (Write ScannedAtRFC3339 ReportKeyName formatOneLineSummary
                      formatList formatFullPlainText jsonMarshal gz Conf
                      storageNewBasicClient blobCreateBlockBlobFromReader
                      w rs h)) ->
  storageNewBasicClient h (AccountName Conf) (AccountKey Conf) = inl cli /\
  container = ContainerName Conf /\
  (Gzip w = true -> exists raw, gz raw = inl body).
Proof.
  destruct rs as [| r0 rs]; [intros [] |].
  pose proof (Write_run r0 rs h) as Hrun. cbv zeta in Hrun.
  destruct (storageNewBasicClient h (AccountName Conf) (AccountKey Conf))
    as [cli' | e].
  - destruct Hrun as [v [es [Heq [_ [_ [_ Hf]]]]]]. rewrite Heq.
    simpl. intros [Hev | HIn]; [discriminate Hev |].
    rewrite Forall_forall in Hf. destruct (Hf _ HIn) as [Hc [Hk Hg]].
    subst. auto.
  - rewrite Hrun. simpl. intros [Hev | []]. discriminate Hev.
Qed.

End AzureBlobRuns.

Lemma Write_success_uploads_all_witness :
  AzureRuns.uploadedKeys
    (events (AzureBlob.Write AzureExamples.scannedAt AzureExamples.keyName
               AzureExamples.oneLine AzureExamples.shortText
               AzureExamples.fullText AzureExamples.toJSON
               AzureExamples.gzipped AzureExamples.conf
               AzureExamples.newClient AzureExamples.putBlob
               AzureExamples.jsonFullGz AzureExamples.hosts [])) =
  ["web1.json.gz"; "web1_full.txt.gz"; "db1.json.gz"; "db1_full.txt.gz"].
Proof.
  exact (proj1 (@Write_success_uploads_all _ AzureExamples.scannedAt
                  AzureExamples.keyName AzureExamples.oneLine
                  AzureExamples.shortText AzureExamples.fullText
                  AzureExamples.toJSON AzureExamples.gzipped
                  AzureExamples.conf AzureExamples.newClient
                  AzureExamples.putBlob AzureExamples.jsonFullGz
                  AzureExamples.hosts [] eq_refl)).
Defined.

Lemma Write_upload_targets_witness :
  In (AzureBlob.EvCreateBlockBlob 7 "vuls" "web1.json.gz" "gz:{}" None)
     (events (AzureBlob.Write AzureExamples.scannedAt AzureExamples.keyName
                AzureExamples.oneLine AzureExamples.shortText
                AzureExamples.fullText AzureExamples.toJSON
                AzureExamples.gzipped AzureExamples.conf
                AzureExamples.newClient AzureExamples.putBlob
                AzureExamples.jsonFullGz AzureExamples.hosts [])) /\
  exists raw, AzureExamples.gzipped raw = inl "gz:{}".
Proof.
  assert (HIn :
    In (AzureBlob.EvCreateBlockBlob 7 "vuls" "web1.json.gz" "gz:{}" None)
       (events (AzureBlob.Write AzureExamples.scannedAt AzureExamples.keyName
                  AzureExamples.oneLine AzureExamples.shortText
                  AzureExamples.fullText AzureExamples.toJSON
                  AzureExamples.gzipped AzureExamples.conf
                  AzureExamples.newClient AzureExamples.putBlob
                  AzureExamples.jsonFullGz AzureExamples.hosts []))).
  { vm_compute. right; left; reflexivity. }
  split; [exact HIn |].
  destruct (@Write_upload_targets _ AzureExamples.scannedAt
              AzureExamples.keyName AzureExamples.oneLine
              AzureExamples.shortText AzureExamples.fullText
              AzureExamples.toJSON AzureExamples.gzipped
              AzureExamples.conf AzureExamples.newClient
              AzureExamples.putBlob AzureExamples.jsonFullGz
              AzureExamples.hosts [] 7 "vuls" "web1.json.gz" "gz:{}" None HIn)
    as [_ [_ Hg]].
  exact (Hg eq_refl).
Defined.

(** * CheckIfAzureContainerExists *)

Section AzureContainerCheck.

Import AzureBlob AzureContainer.

Variable Conf : AzureConf.
Variable storageNewBasicClient :
  AzureContainer.Trace -> string -> string -> BlobStorageClient + error.
Variable cliListContainers :
  AzureContainer.Trace -> BlobStorageClient -> list string + error.

(** The loop finds the container exactly when its name is in the list. *)
Lemma findContainer_In (names : list string) :
  findContainer Conf names = true <-> In (ContainerName Conf) names.
Proof.
  induction names as [| name rest IH]; simpl.
  - split; [discriminate | intros []].
  - destruct (name =? ContainerName Conf) eqn:Hn.
    + apply String.eqb_eq in Hn. split; auto.
    + apply String.eqb_neq in Hn. rewrite IH. split; auto.
      intros [Heq | HIn]; [contradiction | exact HIn].
Qed.

(** X19. [CheckIfAzureContainerExists] returns nil exactly when the client
    could be built, the listing of the containers succeeded, and the
    configured container name is among the names listed. *)
Theorem CheckIfAzureContainerExists_nil_iff (h : AzureContainer.Trace) :
  value (CheckIfAzureContainerExists Conf storageNewBasicClient
           cliListContainers h) = None <->
  exists cli names,
    storageNewBasicClient h (AccountName Conf) (AccountKey Conf) = inl cli /\
    cliListContainers
      (h ++ [EvNewBasicClient (AccountName Conf) (AccountKey Conf) (inl cli)])
      cli = inl names /\
    In (ContainerName Conf) names.
Proof.
  unfold CheckIfAzureContainerExists, AzureContainer.getBlobClient,
    ListContainers, bind, ret, value.
  destruct (storageNewBasicClient h (AccountName Conf) (AccountKey Conf))
    as [cli | e]; simpl.
  - destruct (cliListContainers _ cli) as [names | e] eqn:Hl; simpl.
    + destruct (findContainer Conf names) eqn:Hf; simpl.
      * split; [intros _ | reflexivity].
        exists cli, names. repeat split; auto.
        apply findContainer_In; exact Hf.
      * split; [discriminate |].
        intros [cli' [names' [Hc [Hl' HIn]]]].
        inversion Hc; subst cli'. rewrite Hl in Hl'. inversion Hl'; subst.
        apply findContainer_In in HIn. congruence.
    + split; [discriminate |].
      intros [cli' [names' [Hc [Hl' _]]]].
      inversion Hc; subst cli'. rewrite Hl in Hl'. discriminate Hl'.
  - split; [discriminate |].
    intros [cli' [names' [Hc _]]]. discriminate Hc.
Qed.

(** X20. The errors of [CheckIfAzureContainerExists].  An error of the
    client construction comes back as it is and no listing is made; an error
    of the listing comes back as it is; otherwise the error is
    [Container not found] with the configured name, and then the listing
    succeeded without that name. *)
Theorem CheckIfAzureContainerExists_errors (h : AzureContainer.Trace)
    (e : error) :
  let run := CheckIfAzureContainerExists Conf storageNewBasicClient
               cliListContainers h in
  let newClient := EvNewBasicClient (AccountName Conf) (AccountKey Conf) in
  value run = Some e ->
  events run = [newClient (inr e)] \/
  (exists cli, events run = [newClient (inl cli); EvListContainers cli (inr e)])
  \/
  (exists cli names,
     events run = [newClient (inl cli); EvListContainers cli (inl names)] /\
     ~ In (ContainerName Conf) names /\
     e = Errorf "Container not found. Container: %s"
                [ArgString (ContainerName Conf)]).
Proof.
  cbv zeta.
  unfold CheckIfAzureContainerExists, AzureContainer.getBlobClient,
    ListContainers, bind, ret, value, events.
  destruct (storageNewBasicClient h (AccountName Conf) (AccountKey Conf))
    as [cli | e0]; simpl.
  - destruct (cliListContainers _ cli) as [names | e0] eqn:Hl; simpl.
    + destruct (findContainer Conf names) eqn:Hf; simpl;
        intros Hv; inversion Hv; subst.
      right; right. exists cli, names. repeat split; auto.
      intros HIn. apply findContainer_In in HIn. congruence.
    + intros Hv; inversion Hv; subst. right; left. exists cli. reflexivity.
  - intros Hv; inversion Hv; subst. left. reflexivity.
Qed.

End AzureContainerCheck.

Lemma CheckIfAzureContainerExists_nil_iff_witness :
  value (AzureContainer.CheckIfAzureContainerExists AzureExamples.conf
           (fun _ _ _ => inl 7) AzureExamples.listTwo []) = None.
Proof.
  apply (proj2 (@CheckIfAzureContainerExists_nil_iff AzureExamples.conf
                  (fun _ _ _ => inl 7) AzureExamples.listTwo [])).
  exists 7, ["logs"; "vuls"].
  repeat split. right; left; reflexivity.
Defined.

Lemma CheckIfAzureContainerExists_errors_witness :
  value (AzureContainer.CheckIfAzureContainerExists AzureExamples.conf
           (fun _ _ _ => inl 7) (fun _ _ => inl ["logs"]) []) =
    Some (Errorf "Container not found. Container: %s" [ArgString "vuls"]) /\
  (events (AzureContainer.CheckIfAzureContainerExists AzureExamples.conf
             (fun _ _ _ => inl 7) (fun _ _ => inl ["logs"]) []) =
     [AzureContainer.EvNewBasicClient "account" "key"
        (inr (Errorf "Container not found. Container: %s" [ArgString "vuls"]))]
   \/
   (exists cli,
      events (AzureContainer.CheckIfAzureContainerExists AzureExamples.conf
                (fun _ _ _ => inl 7) (fun _ _ => inl ["logs"]) []) =
      [AzureContainer.EvNewBasicClient "account" "key" (inl cli);
       AzureContainer.EvListContainers cli
         (inr (Errorf "Container not found. Container: %s"
                      [ArgString "vuls"]))])
   \/
   (exists cli names,
      events (AzureContainer.CheckIfAzureContainerExists AzureExamples.conf
                (fun _ _ _ => inl 7) (fun _ _ => inl ["logs"]) []) =
      [AzureContainer.EvNewBasicClient "account" "key" (inl cli);
       AzureContainer.EvListContainers cli (inl names)] /\
      ~ In "vuls" names /\
      Errorf "Container not found. Container: %s" [ArgString "vuls"] =
      Errorf "Container not found. Container: %s" [ArgString "vuls"])).
Proof.
  split; [reflexivity |].
  exact (@CheckIfAzureContainerExists_errors AzureExamples.conf
           (fun _ _ _ => inl 7) (fun _ _ => inl ["logs"]) []
           (Errorf "Container not found. Container: %s" [ArgString "vuls"])
           eq_refl).
Defined.

(** * Driver calls of a whole run *)

Lemma driverOpens_app (t1 t2 : Trace) :
  driverOpens (t1 ++ t2) = driverOpens t1 ++ driverOpens t2.
Proof.
  induction t1 as [| e t1 IH]; simpl; [reflexivity |].
  destruct e; simpl; rewrite IH; reflexivity.
Qed.

(** A factory calls its driver at most once, and no other driver. *)
Lemma factory_driverOpens (w : World) (k : ResourceKind) (cnf : DBClientConf)
    (h : Trace) :
  driverOpens (events (factory w k cnf h)) = [] \/
  driverOpens (events (factory w k cnf h)) = [k].
Proof.
  destruct k; unfold_factory; split_cases; auto.
Qed.

Lemma isSubseq_nil (ks : list ResourceKind) : isSubseq [] ks = true.
Proof. destruct ks; reflexivity. Qed.

Lemma kind_eqb_refl (k : ResourceKind) : kind_eqb k k = true.
Proof. destruct k; reflexivity. Qed.

Lemma isSubseq_tail (x : ResourceKind) (l ks : list ResourceKind) :
  isSubseq (x :: l) ks = true -> isSubseq l ks = true.
Proof.
  revert x l.
  induction ks as [| k' ks IH]; intros x l Hl; simpl in Hl;
    [discriminate Hl |].
  destruct l as [| y l]; [reflexivity |]. simpl.
  destruct (kind_eqb x k').
  - destruct (kind_eqb y k'); [apply (IH y l Hl) | exact Hl].
  - apply IH in Hl.
    destruct (kind_eqb y k'); [apply (IH y l Hl) | exact Hl].
Qed.

(** The calls of the factory of [k], then calls in the order of [ks]. *)
Lemma isSubseq_step (k : ResourceKind) (ks o l : list ResourceKind) :
  o = [] \/ o = [k] ->
  isSubseq l ks = true ->
  isSubseq (o ++ l) (k :: ks) = true.
Proof.
  intros [Ho | Ho] Hl; subst o; simpl.
  - destruct l as [| x l]; [reflexivity |].
    destruct (kind_eqb x k); [apply (isSubseq_tail x l ks Hl) | exact Hl].
  - rewrite kind_eqb_refl. exact Hl.
Qed.

Ltac step_call_opens :=
  match goal with
  | |- context [factory ?w ?k ?cnf ?h] =>
      generalize (factory_shape w k cnf h)
                 (factory_driverOpens w k cnf h);
      destruct (factory w k cnf h) as [[[?d [|]] [?e |]] ?es];
      unfold events, value, res_err, res_locked, res_driver;
      cbn -[factory isSubseq];
      let Hnl := fresh "Hnl" in
      intros [Hnl _] ?;
      try (specialize (Hnl eq_refl); discriminate Hnl);
      clear Hnl
  end.

(** X21. In a run of [NewDBClient] no database is opened twice: the
    drivers called, in the order of their calls, are CVE, OVAL, Gost,
    Exploit, Metasploit with some of them left out. *)
Theorem NewDBClient_opens_each_once (w : World) (cnf : DBClientConf)
    (h : Trace) :
  isSubseq (driverOpens (events (NewDBClient w cnf h))) allKinds = true.
Proof.
  unfold allKinds. unfold_client. repeat step_call_opens.
  all: repeat (rewrite ?driverOpens_app; cbn [driverOpens app]).
  all: rewrite <- ?app_assoc; cbn [app].
  all: repeat (apply isSubseq_step; [assumption |]).
  all: apply isSubseq_nil.
Qed.
